(** * ytt, package [pkg/cmd/template]: the [template] command

    A shallow embedding of [cmd.go]: the option and result structs, the
    [FileSource] interface with [pickSource], [inspectFiles] and the
    pipeline driver [RunWithFiles].

    The command drives code of other packages ([files], [yamlmeta],
    [workspace]) and of sibling files of its own package
    ([FileMarksOpts], [DataValuesFlags]).  That code is not modelled:
    each package is an interface (a type class) whose operations return
    what the Go signatures return, an [error] or a value.  The driver is
    the code under study.  To speak about which operations a run reaches,
    every call of [RunWithFiles] whose error it checks, the listing of
    the files, the debug print of the library and every warning written
    to [ui] are recorded in a log of [Event]s, in program order. *)

From Stdlib Require Import Ascii String NArith Lia.
From stdpp Require Import base option list sorting.

(** Go's [error] values, identified by their message. *)
Definition error : Type := string.

(** A Go call returning [(T, error)]. *)
Definition result (T : Type) : Type := error + T.

(** ** Package [files] *)

Module files.

Class Pkg : Type := {
  File : Type;
  RelativePath : File → string;
  OutputFile : Type;
}.

End files.

(** ** Package [yamlmeta] *)

Module yamlmeta.

Class Pkg : Type := {
  (** YAML nodes other than the ones the command builds itself. *)
  Node : Type;
  (** [*yamlmeta.DocumentSchema], the typed schema. *)
  DocumentSchema : Type;
}.

Section Types.
Context `{Pkg}.

(** [interface{}] as the command uses it: a string, an [*Array], or a
    node built elsewhere. *)
Inductive Any : Type :=
| AnyString (s : string)
| AnyArray (a : Array)
| AnyNode (n : Node)
with Array : Type :=
| MkArray (items : list ArrayItem)
with ArrayItem : Type :=
| MkArrayItem (value : Any).

Definition Array_Items (a : Array) : list ArrayItem :=
  match a with MkArray items => items end.

Definition ArrayItem_Value (i : ArrayItem) : Any :=
  match i with MkArrayItem v => v end.

Record Document : Type := MkDocument { Document_Value : Any }.

Record DocumentSet : Type := MkDocumentSet {
  DocumentSet_Items : list Document;
}.

(** The [Schema] interface with its two implementations: [AnySchema] and
    [*DocumentSchema]. *)
Inductive Schema : Type :=
| AnySchema
| TypedSchema (s : DocumentSchema).

End Types.

Class Ops `{Pkg} : Type := {
  NewDocumentSchema : Document → result DocumentSchema;
}.

End yamlmeta.

(** ** Package [workspace] *)

Module workspace.

Class Types : Type := {
  Library : Type;
  DataValues : Type;
}.

Section Structs.
Context `{files.Pkg, yamlmeta.Pkg, Types}.

Record FileInLibrary : Type := MkFileInLibrary {
  File : files.File;
  InLibrary : Library;
}.

Record TemplateLoaderOpts : Type := MkTemplateLoaderOpts {
  IgnoreUnknownComments : bool;
  ImplicitMapKeyOverrides : bool;
  StrictYAML : bool;
}.

Record LibraryExecutionContext : Type := MkLibraryExecutionContext {
  Current : Library;
  Root : Library;
}.

Record EvalResult : Type := MkEvalResult {
  Files : list files.OutputFile;
  DocSet : option yamlmeta.DocumentSet;
}.

(** What [NewLibraryExecutionFactory(ui, opts).New(ctx)] is built from;
    [ui] is the log. *)
Record LibraryLoader : Type := MkLibraryLoader {
  loaderCtx : LibraryExecutionContext;
  loaderOpts : TemplateLoaderOpts;
}.

End Structs.

Class Ops `{files.Pkg, yamlmeta.Pkg, Types} : Type := {
  NewRootLibrary : list files.File → Library;
  ListAccessibleFiles : Library → list FileInLibrary;
  (** The order [SortFilesInLibrary] sorts by. *)
  OrderLe : relation FileInLibrary;
  OrderLe_dec :: RelDecision OrderLe;
  Doc : DataValues → yamlmeta.Document;
  Schemas : LibraryLoader → result (list yamlmeta.Document);
  Values : LibraryLoader → list DataValues → yamlmeta.Schema →
           result (DataValues * list DataValues);
  Eval : LibraryLoader → DataValues → list DataValues → result EvalResult;
}.

(** Modelled from the spec: [workspace.SortFilesInLibrary], which
    [inspectFiles] calls and whose code is not at hand.  The listing is
    "sorted by a defined total order (e.g., lexicographic on full path)":
    the slice is sorted by the order [OrderLe] of the package. *)
Definition SortFilesInLibrary `{Ops} (files : list FileInLibrary)
  : list FileInLibrary :=
  merge_sort OrderLe files.

End workspace.

(** ** Package [template]: sibling files of [cmd.go] *)

(** The option structs [cmd.go] embeds and the two methods it calls on
    them.  The types carry a [T] so that the fields of [TemplateOptions]
    keep their names. *)
Class Flags `{files.Pkg, workspace.Types} : Type := {
  BulkFilesSourceOptsT : Type;
  RegularFilesSourceOptsT : Type;
  FileMarksOptsT : Type;
  DataValuesFlagsT : Type;
  Apply : FileMarksOptsT → list files.File → result (list files.File);
  Inspect : DataValuesFlagsT → bool;
  AsOverlays : DataValuesFlagsT → bool →
               result (list workspace.DataValues * list workspace.DataValues);
}.

(** ** [cmd.go] *)

Section Cmd.
Context `{files.Pkg, yamlmeta.Pkg, !yamlmeta.Ops, workspace.Types,
          !workspace.Ops, !Flags}.

Record TemplateOptions : Type := MkTemplateOptions {
  IgnoreUnknownComments : bool;
  ImplicitMapKeyOverrides : bool;
  StrictYAML : bool;
  Debug : bool;
  InspectFiles : bool;
  SchemaEnabled : bool;
  BulkFilesSourceOpts : BulkFilesSourceOptsT;
  RegularFilesSourceOpts : RegularFilesSourceOptsT;
  FileMarksOpts : FileMarksOptsT;
  DataValuesFlags : DataValuesFlagsT;
}.

Record TemplateInput : Type := MkTemplateInput {
  Input_Files : list files.File;
}.

Record TemplateOutput : Type := MkTemplateOutput {
  Files : list files.OutputFile;
  DocSet : option yamlmeta.DocumentSet;
  Err : option error;
}.

(** [TemplateOutput{Err: err}], [TemplateOutput{DocSet: ds}]: the fields
    a Go composite literal leaves out are zero. *)
Definition OutputErr (err : error) : TemplateOutput :=
  {| Files := []; DocSet := None; Err := Some err |}.

Definition OutputDocSet (ds : yamlmeta.DocumentSet) : TemplateOutput :=
  {| Files := []; DocSet := Some ds; Err := None |}.

Record FileSource : Type := MkFileSource {
  HasInput : bool;
  HasOutput : bool;
  Input : result TemplateInput;
  Output : TemplateOutput → option error;
}.

(** *** The log *)

(** One event per call of [RunWithFiles] and [inspectFiles] into the
    pipeline, with the arguments that vary and, for a call whose error is
    checked, what it returned; [EvWarnf] is a message of [ui.Warnf]. *)
Inductive Event : Type :=
| EvApply (res : result (list files.File))
| EvPrint (lib : workspace.Library)
| EvListAccessibleFiles (lib : workspace.Library)
| EvAsOverlays (strict : bool)
    (res : result (list workspace.DataValues * list workspace.DataValues))
| EvSchemas (res : result (list yamlmeta.Document))
| EvNewDocumentSchema (doc : yamlmeta.Document)
    (res : result yamlmeta.DocumentSchema)
| EvWarnf (msg : string)
| EvValues (overlays : list workspace.DataValues) (schema : yamlmeta.Schema)
    (res : result (workspace.DataValues * list workspace.DataValues))
| EvEval (values : workspace.DataValues)
    (libraryValues : list workspace.DataValues)
    (res : result workspace.EvalResult).

(** A piece of the body of [RunWithFiles]: the events it logs, and either
    the output the function has returned with ([inl]) or the value the
    rest of the body goes on with ([inr]). *)
Definition Flow (A : Type) : Type := list Event * (TemplateOutput + A).

Definition Return {A : Type} (out : TemplateOutput) : Flow A := ([], inl out).

Definition log (e : Event) : Flow () := ([e], inr ()).

#[local] Instance Flow_ret : MRet Flow := λ A a, ([], inr a).

#[local] Instance Flow_bind : MBind Flow := λ A B k m,
  match m.2 with
  | inl out => (m.1, inl out)
  | inr a => (m.1 ++ (k a).1, (k a).2)
  end.

(** [x, err := f(...); if err != nil { return TemplateOutput{Err: err} }] *)
Definition call {A : Type} (ev : result A → Event) (r : result A) : Flow A :=
  match r with
  | inl err => ([ev r], inl (OutputErr err))
  | inr a => ([ev r], inr a)
  end.

(** The function as a whole: the log and the output it returned. *)
Definition finish (m : Flow TemplateOutput) : list Event * TemplateOutput :=
  (m.1, match m.2 with inl out => out | inr out => out end).

Definition nl : string := String "010"%char EmptyString.

Definition schemaNotEnabledWarning : string :=
  String.append
    "Warning: schema document was detected, but schema experiment flag is not enabled. Did you mean to include --enable-experiment-schema?"
    nl.

Definition schemaMissingError : error :=
  "Schema experiment flag was enabled but no schema document was provided. (See this propsal for details on how to include a schema document: https://github.com/k14s/design-docs/blob/develop/ytt/001-schemas/README.md#defining-a-schema-document)"%string.

(** *** [pickSource] *)

(** The [for ... range] loop: the first source [pickFunc] accepts. *)
Fixpoint pickLoop (srcs : list FileSource) (pickFunc : FileSource → bool)
  : option FileSource :=
  match srcs with
  | [] => None
  | src :: rest => if pickFunc src then Some src else pickLoop rest pickFunc
  end.

(** [None] is the run-time panic of [srcs[len(srcs)-1]] on an empty
    slice. *)
Definition pickSource (o : TemplateOptions) (srcs : list FileSource)
    (pickFunc : FileSource → bool) : option FileSource :=
  match pickLoop srcs pickFunc with
  | Some src => Some src
  | None => srcs !! (length srcs - 1)
  end.

(** *** [inspectFiles] *)

(** The loop appending one [ArrayItem] per file to [paths.Items]. *)
Definition appendPath (paths : yamlmeta.Array)
    (fileInLib : workspace.FileInLibrary) : yamlmeta.Array :=
  yamlmeta.MkArray
    (yamlmeta.Array_Items paths ++
     [yamlmeta.MkArrayItem
        (yamlmeta.AnyString (files.RelativePath (workspace.File fileInLib)))]).

Definition inspectFiles (o : TemplateOptions)
    (rootLibrary : workspace.Library) : list Event * TemplateOutput :=
  let files := workspace.ListAccessibleFiles rootLibrary in
  let files := workspace.SortFilesInLibrary files in
  let paths := foldl appendPath (yamlmeta.MkArray []) files in
  ([EvListAccessibleFiles rootLibrary],
   OutputDocSet
     (yamlmeta.MkDocumentSet
        [yamlmeta.MkDocument (yamlmeta.AnyArray paths)])).

(** *** [RunWithFiles] *)

(** Lines 134-150: the schema the run goes on with. *)
Definition pickSchema (o : TemplateOptions)
    (schemaDocs : list yamlmeta.Document) : Flow yamlmeta.Schema :=
  match schemaDocs with
  | doc :: _ =>
      if SchemaEnabled o then
        s ← call (EvNewDocumentSchema doc) (yamlmeta.NewDocumentSchema doc);
        mret (yamlmeta.TypedSchema s)
      else
        log (EvWarnf schemaNotEnabledWarning);;
        mret yamlmeta.AnySchema
  | [] =>
      if SchemaEnabled o then Return (OutputErr schemaMissingError)
      else mret yamlmeta.AnySchema
  end.

(** Lines 121-128: the loader of the root library, [Current] and [Root]
    both the root. *)
Definition newLibraryLoader (o : TemplateOptions)
    (rootLibrary : workspace.Library) : workspace.LibraryLoader :=
  let libraryCtx :=
    {| workspace.Current := rootLibrary; workspace.Root := rootLibrary |} in
  {| workspace.loaderCtx := libraryCtx;
     workspace.loaderOpts :=
       {| workspace.IgnoreUnknownComments := IgnoreUnknownComments o;
          workspace.ImplicitMapKeyOverrides := ImplicitMapKeyOverrides o;
          workspace.StrictYAML := StrictYAML o |} |}.

Definition RunWithFiles (o : TemplateOptions) (inp : TemplateInput)
  : list Event * TemplateOutput :=
  finish (
    files ← call EvApply (Apply (FileMarksOpts o) (Input_Files inp));
    let rootLibrary := workspace.NewRootLibrary files in
    log (EvPrint rootLibrary);;
    if InspectFiles o then
      let r := inspectFiles o rootLibrary in (r.1, inl r.2)
    else
      '(valuesOverlays, libraryValuesOverlays) ←
        call (EvAsOverlays (StrictYAML o))
             (AsOverlays (DataValuesFlags o) (StrictYAML o));
      let libraryLoader := newLibraryLoader o rootLibrary in
      schemaDocs ← call EvSchemas (workspace.Schemas libraryLoader);
      schema ← pickSchema o schemaDocs;
      '(values, libraryValues) ←
        call (EvValues valuesOverlays schema)
             (workspace.Values libraryLoader valuesOverlays schema);
      let libraryValues := libraryValues ++ libraryValuesOverlays in
      if Inspect (DataValuesFlags o) then
        Return (OutputDocSet (yamlmeta.MkDocumentSet [workspace.Doc values]))
      else
        result ← call (EvEval values libraryValues)
                      (workspace.Eval libraryLoader values libraryValues);
        Return {| Files := workspace.Files result;
                  DocSet := workspace.DocSet result;
                  Err := None |}).

(** [Run], without the timing it writes to the debug log: the two
    sources are built from the options, the first with input is read,
    the first with output receives the result.  [None] is a panic. *)
Definition Run (o : TemplateOptions) (bulk regular : FileSource)
  : option (list Event * option error) :=
  let srcs := [bulk; regular] in
  src ← pickSource o srcs HasInput;
  match Input src with
  | inl err => Some ([], Some err)
  | inr inp =>
      let r := RunWithFiles o inp in
      dst ← pickSource o srcs HasOutput;
      Some (r.1, Output dst r.2)
  end.

(** *** Notions the properties are stated with *)

(** The error a logged call came back with, if it did. *)
Definition stageError (ev : Event) : option error :=
  match ev with
  | EvApply (inl err)
  | EvAsOverlays _ (inl err)
  | EvSchemas (inl err)
  | EvNewDocumentSchema _ (inl err)
  | EvValues _ _ (inl err)
  | EvEval _ _ (inl err) => Some err
  | _ => None
  end.

(** What a run did, read off its log. *)
Definition listed (l : list Event) : Prop :=
  ∃ lib, EvListAccessibleFiles lib ∈ l.

Definition parsedFlags (l : list Event) : Prop :=
  ∃ strict res, EvAsOverlays strict res ∈ l.

Definition resolved (l : list Event) : Prop :=
  ∃ overlays schema res, EvValues overlays schema res ∈ l.

Definition evaluated (l : list Event) : Prop :=
  ∃ values libraryValues res, EvEval values libraryValues res ∈ l.

Definition warned (l : list Event) : Prop :=
  ∃ msg, EvWarnf msg ∈ l.

Definition builtSchema (l : list Event) : Prop :=
  ∃ doc res, EvNewDocumentSchema doc res ∈ l.

(** Values resolution ran, and with no other schema than [schema]. *)
Definition usesSchema (l : list Event) (schema : yamlmeta.Schema) : Prop :=
  (∃ overlays res, EvValues overlays schema res ∈ l) ∧
  (∀ overlays schema' res, EvValues overlays schema' res ∈ l → schema' = schema).

(** The options with the files-inspect flag set to [b]. *)
Definition withInspectFiles (b : bool) (o : TemplateOptions) : TemplateOptions :=
  {| IgnoreUnknownComments := IgnoreUnknownComments o;
     ImplicitMapKeyOverrides := ImplicitMapKeyOverrides o;
     StrictYAML := StrictYAML o;
     Debug := Debug o;
     InspectFiles := b;
     SchemaEnabled := SchemaEnabled o;
     BulkFilesSourceOpts := BulkFilesSourceOpts o;
     RegularFilesSourceOpts := RegularFilesSourceOpts o;
     FileMarksOpts := FileMarksOpts o;
     DataValuesFlags := DataValuesFlags o |}.

(** The output modes, in the order the body of [RunWithFiles] tests the
    two flags: [InspectFiles] at line 112, then [DataValuesFlags.Inspect]
    at line 158. *)
Inductive Mode : Type := Normal | ValuesInspect | FilesInspect.

Definition modeOf (o : TemplateOptions) : Mode :=
  if InspectFiles o then FilesInspect
  else if Inspect (DataValuesFlags o) then ValuesInspect
  else Normal.

(** The listing of [inspectFiles] for a slice of files, entry by entry. *)
Definition pathItems (fs : list workspace.FileInLibrary)
  : list yamlmeta.ArrayItem :=
  (λ f, yamlmeta.MkArrayItem
          (yamlmeta.AnyString
             (files.RelativePath (workspace.File f)))) <$> fs.

Definition listingOf (fs : list workspace.FileInLibrary) : TemplateOutput :=
  OutputDocSet
    (yamlmeta.MkDocumentSet
       [yamlmeta.MkDocument (yamlmeta.AnyArray (yamlmeta.MkArray (pathItems fs)))]).

(** *** The paths through the body

    [pickSchema] and [RunWithFiles] once more, as relations between the
    inputs, the log and the output: one rule per [return] of the Go code
    (and per branch of the schema gate).  The functions above are the
    model; [pickSchema_view] and [RunWithFiles_view] show that they follow
    these rules, and the properties are then proved by cases on the rule a
    run took. *)

Inductive GateView (o : TemplateOptions)
  : list yamlmeta.Document → list Event → TemplateOutput + yamlmeta.Schema → Prop :=
| GateTyped doc rest s :
    SchemaEnabled o = true →
    yamlmeta.NewDocumentSchema doc = inr s →
    GateView o (doc :: rest) [EvNewDocumentSchema doc (inr s)]
             (inr (yamlmeta.TypedSchema s))
| GateBuildErr doc rest err :
    SchemaEnabled o = true →
    yamlmeta.NewDocumentSchema doc = inl err →
    GateView o (doc :: rest) [EvNewDocumentSchema doc (inl err)]
             (inl (OutputErr err))
| GateWarn doc rest :
    SchemaEnabled o = false →
    GateView o (doc :: rest) [EvWarnf schemaNotEnabledWarning]
             (inr yamlmeta.AnySchema)
| GateMissing :
    SchemaEnabled o = true →
    GateView o [] [] (inl (OutputErr schemaMissingError))
| GateNone :
    SchemaEnabled o = false →
    GateView o [] [] (inr yamlmeta.AnySchema).

(** The log up to the schema gate, when every call so far succeeded. *)
Definition uptoGate (o : TemplateOptions) (files : list files.File)
    (overlays libraryOverlays : list workspace.DataValues)
    (schemaDocs : list yamlmeta.Document) : list Event :=
  [EvApply (inr files);
   EvPrint (workspace.NewRootLibrary files);
   EvAsOverlays (StrictYAML o) (inr (overlays, libraryOverlays));
   EvSchemas (inr schemaDocs)].

Inductive RunView (o : TemplateOptions) (inp : TemplateInput)
  : list Event → TemplateOutput → Prop :=
| RunApplyErr err :
    Apply (FileMarksOpts o) (Input_Files inp) = inl err →
    RunView o inp [EvApply (inl err)] (OutputErr err)
| RunFilesInspect files :
    Apply (FileMarksOpts o) (Input_Files inp) = inr files →
    InspectFiles o = true →
    RunView o inp
      [EvApply (inr files);
       EvPrint (workspace.NewRootLibrary files);
       EvListAccessibleFiles (workspace.NewRootLibrary files)]
      (listingOf
         (workspace.SortFilesInLibrary
            (workspace.ListAccessibleFiles (workspace.NewRootLibrary files))))
| RunFlagsErr files err :
    Apply (FileMarksOpts o) (Input_Files inp) = inr files →
    InspectFiles o = false →
    AsOverlays (DataValuesFlags o) (StrictYAML o) = inl err →
    RunView o inp
      [EvApply (inr files);
       EvPrint (workspace.NewRootLibrary files);
       EvAsOverlays (StrictYAML o) (inl err)]
      (OutputErr err)
| RunSchemasErr files vo lvo err :
    Apply (FileMarksOpts o) (Input_Files inp) = inr files →
    InspectFiles o = false →
    AsOverlays (DataValuesFlags o) (StrictYAML o) = inr (vo, lvo) →
    workspace.Schemas (newLibraryLoader o (workspace.NewRootLibrary files))
      = inl err →
    RunView o inp
      [EvApply (inr files);
       EvPrint (workspace.NewRootLibrary files);
       EvAsOverlays (StrictYAML o) (inr (vo, lvo));
       EvSchemas (inl err)]
      (OutputErr err)
| RunGateStop files vo lvo docs g out :
    Apply (FileMarksOpts o) (Input_Files inp) = inr files →
    InspectFiles o = false →
    AsOverlays (DataValuesFlags o) (StrictYAML o) = inr (vo, lvo) →
    workspace.Schemas (newLibraryLoader o (workspace.NewRootLibrary files))
      = inr docs →
    GateView o docs g (inl out) →
    RunView o inp (uptoGate o files vo lvo docs ++ g) out
| RunValuesErr files vo lvo docs g schema err :
    Apply (FileMarksOpts o) (Input_Files inp) = inr files →
    InspectFiles o = false →
    AsOverlays (DataValuesFlags o) (StrictYAML o) = inr (vo, lvo) →
    workspace.Schemas (newLibraryLoader o (workspace.NewRootLibrary files))
      = inr docs →
    GateView o docs g (inr schema) →
    workspace.Values (newLibraryLoader o (workspace.NewRootLibrary files))
      vo schema = inl err →
    RunView o inp
      (uptoGate o files vo lvo docs ++ g ++ [EvValues vo schema (inl err)])
      (OutputErr err)
| RunValuesInspect files vo lvo docs g schema values lv :
    Apply (FileMarksOpts o) (Input_Files inp) = inr files →
    InspectFiles o = false →
    AsOverlays (DataValuesFlags o) (StrictYAML o) = inr (vo, lvo) →
    workspace.Schemas (newLibraryLoader o (workspace.NewRootLibrary files))
      = inr docs →
    GateView o docs g (inr schema) →
    workspace.Values (newLibraryLoader o (workspace.NewRootLibrary files))
      vo schema = inr (values, lv) →
    Inspect (DataValuesFlags o) = true →
    RunView o inp
      (uptoGate o files vo lvo docs ++ g
         ++ [EvValues vo schema (inr (values, lv))])
      (OutputDocSet (yamlmeta.MkDocumentSet [workspace.Doc values]))
| RunEvalErr files vo lvo docs g schema values lv err :
    Apply (FileMarksOpts o) (Input_Files inp) = inr files →
    InspectFiles o = false →
    AsOverlays (DataValuesFlags o) (StrictYAML o) = inr (vo, lvo) →
    workspace.Schemas (newLibraryLoader o (workspace.NewRootLibrary files))
      = inr docs →
    GateView o docs g (inr schema) →
    workspace.Values (newLibraryLoader o (workspace.NewRootLibrary files))
      vo schema = inr (values, lv) →
    Inspect (DataValuesFlags o) = false →
    workspace.Eval (newLibraryLoader o (workspace.NewRootLibrary files))
      values (lv ++ lvo) = inl err →
    RunView o inp
      (uptoGate o files vo lvo docs ++ g
         ++ [EvValues vo schema (inr (values, lv));
             EvEval values (lv ++ lvo) (inl err)])
      (OutputErr err)
| RunEvalOk files vo lvo docs g schema values lv res :
    Apply (FileMarksOpts o) (Input_Files inp) = inr files →
    InspectFiles o = false →
    AsOverlays (DataValuesFlags o) (StrictYAML o) = inr (vo, lvo) →
    workspace.Schemas (newLibraryLoader o (workspace.NewRootLibrary files))
      = inr docs →
    GateView o docs g (inr schema) →
    workspace.Values (newLibraryLoader o (workspace.NewRootLibrary files))
      vo schema = inr (values, lv) →
    Inspect (DataValuesFlags o) = false →
    workspace.Eval (newLibraryLoader o (workspace.NewRootLibrary files))
      values (lv ++ lvo) = inr res →
    RunView o inp
      (uptoGate o files vo lvo docs ++ g
         ++ [EvValues vo schema (inr (values, lv));
             EvEval values (lv ++ lvo) (inr res)])
      {| Files := workspace.Files res;
         DocSet := workspace.DocSet res;
         Err := None |}.

(** The place of a logged call in the body of [RunWithFiles], in program
    order; calls on exclusive branches share no run. *)
Definition stageIndex (ev : Event) : nat :=
  match ev with
  | EvApply _ => 0
  | EvPrint _ => 1
  | EvListAccessibleFiles _ => 2
  | EvAsOverlays _ _ => 3
  | EvSchemas _ => 4
  | EvNewDocumentSchema _ _ => 5
  | EvWarnf _ => 6
  | EvValues _ _ _ => 7
  | EvEval _ _ _ => 8
  end.

(** The options with other data-values flags. *)
Definition withDataValuesFlags (dvf : DataValuesFlagsT) (o : TemplateOptions)
  : TemplateOptions :=
  {| IgnoreUnknownComments := IgnoreUnknownComments o;
     ImplicitMapKeyOverrides := ImplicitMapKeyOverrides o;
     StrictYAML := StrictYAML o;
     Debug := Debug o;
     InspectFiles := InspectFiles o;
     SchemaEnabled := SchemaEnabled o;
     BulkFilesSourceOpts := BulkFilesSourceOpts o;
     RegularFilesSourceOpts := RegularFilesSourceOpts o;
     FileMarksOpts := FileMarksOpts o;
     DataValuesFlags := dvf |}.

(** The source [Run] picks from its two sources by [pickFunc]. *)
Definition pickedOf (pickFunc : FileSource → bool) (bulk regular : FileSource)
  : FileSource :=
  if pickFunc bulk then bulk else regular.

End Cmd.

(** ** A small instance of the packages

    Files are a path and a body; a library is the list of its files; YAML
    nodes, schemas and data values are kept as text.  Every operation that
    can fail in the Go signatures can fail here. *)

Module demo.

Record File : Type := MkFile { path : string; body : string }.

#[export] Instance filesPkg : files.Pkg :=
  {| files.File := File;
     files.RelativePath := path;
     files.OutputFile := string * string |}.

#[export] Instance yamlPkg : yamlmeta.Pkg :=
  {| yamlmeta.Node := string; yamlmeta.DocumentSchema := string |}.

(** A schema document must be a non-empty node. *)
#[export] Instance yamlOps : yamlmeta.Ops :=
  {| yamlmeta.NewDocumentSchema doc :=
       match yamlmeta.Document_Value doc with
       | yamlmeta.AnyNode EmptyString => inl "empty schema"%string
       | yamlmeta.AnyNode n => inr n
       | _ => inl "schema is not a node"%string
       end |}.

#[export] Instance workspaceTypes : workspace.Types :=
  {| workspace.Library := list File; workspace.DataValues := string |}.

Definition isSchema (f : File) : bool := String.prefix "#@schema" (body f).

Definition isBroken (f : File) : bool := String.eqb (body f) "{{".

Definition pathLe (a b : workspace.FileInLibrary) : Prop :=
  String.leb (path (workspace.File a)) (path (workspace.File b)) = true.

#[export] Instance pathLe_dec : RelDecision pathLe.
Proof. intros a b. unfold pathLe. apply _. Defined.

#[export] Instance workspaceOps : workspace.Ops :=
  {| workspace.NewRootLibrary fs := fs;
     workspace.ListAccessibleFiles lib :=
       (λ f, workspace.MkFileInLibrary f lib) <$> lib;
     workspace.OrderLe := pathLe;
     workspace.Doc v := yamlmeta.MkDocument (yamlmeta.AnyNode v);
     workspace.Schemas loader :=
       inr ((λ f, yamlmeta.MkDocument (yamlmeta.AnyNode (body f))) <$>
            filter (λ f, isSchema f = true)
                   (workspace.Root (workspace.loaderCtx loader)));
     workspace.Values loader overlays schema :=
       match overlays with
       | EmptyString :: _ => inl "empty data values"%string
       | _ => inr (String.concat ";" overlays, ["from-library"%string])
       end;
     workspace.Eval loader values libraryValues :=
       let fs := workspace.Root (workspace.loaderCtx loader) in
       if existsb isBroken fs then inl "cannot parse template"%string
       else inr {| workspace.Files := (λ f, (path f, values)) <$> fs;
                   workspace.DocSet :=
                     Some (yamlmeta.MkDocumentSet
                             [yamlmeta.MkDocument (yamlmeta.AnyNode values)]) |}
  |}.

Record dataValuesFlags : Type := MkDataValuesFlags {
  inspect : bool;
  kvs : list string;
  libraryKvs : list string;
}.

(** A file mark is [path:mark]; a data value is not empty. *)
Fixpoint hasColon (s : string) : bool :=
  match s with
  | EmptyString => false
  | String c rest => if Ascii.eqb c ":" then true else hasColon rest
  end.

#[export] Instance flags : Flags :=
  {| BulkFilesSourceOptsT := unit;
     RegularFilesSourceOptsT := unit;
     FileMarksOptsT := list string;
     DataValuesFlagsT := dataValuesFlags;
     Apply marks fs :=
       if forallb hasColon marks then inr fs
       else inl "expected file mark to be in format path:mark"%string;
     Inspect := inspect;
     AsOverlays dvf strict :=
       if existsb (String.eqb "") (kvs dvf)
       then inl "expected data value to be in format key=value"%string
       else inr (kvs dvf, libraryKvs dvf) |}.

Definition options (inspectFiles schemaEnabled inspectValues : bool)
    (marks values libraryValues : list string) : TemplateOptions :=
  {| IgnoreUnknownComments := false;
     ImplicitMapKeyOverrides := false;
     StrictYAML := false;
     Debug := false;
     InspectFiles := inspectFiles;
     SchemaEnabled := schemaEnabled;
     BulkFilesSourceOpts := tt;
     RegularFilesSourceOpts := tt;
     FileMarksOpts := marks;
     DataValuesFlags := MkDataValuesFlags inspectValues values libraryValues |}.

Definition config : File := MkFile "config.yml" "a: 1".
Definition broken : File := MkFile "b/tpl.yml" "{{".
Definition schema1 : File := MkFile "schema.yml" "#@schema one".
Definition schema2 : File := MkFile "a/schema.yml" "#@schema two".

Definition input (fs : list File) : TemplateInput :=
  {| Input_Files := fs |}.

(** Text as a YAML document, and as data values. *)
Definition doc (s : string) : yamlmeta.Document :=
  @yamlmeta.MkDocument yamlPkg (@yamlmeta.AnyNode yamlPkg s).

Definition dv (s : string) : workspace.DataValues := s.

(** Runs used below: a listing over a broken template, with and without
    a malformed file mark; values-inspect with and without a malformed
    data value; a normal run over two schema documents; a normal run over
    one schema document without the flag. *)
Definition listBroken : TemplateOptions :=
  options true false false [] [""%string] [].

Definition listBadMark : TemplateOptions :=
  options true false true ["nomark"%string] [] [].

Definition showValues : TemplateOptions :=
  options false true true [] ["a=2"%string] ["lib:b=3"%string].

Definition showBadValues : TemplateOptions :=
  options false false true [] [""%string] [].

Definition twoSchemas : TemplateOptions :=
  options false true false [] ["a=2"%string] ["lib:b=3"%string].

Definition schemaOff : TemplateOptions :=
  options false false false [] ["a=2"%string] ["lib:b=3"%string].

Definition source (hasInput hasOutput : bool) (fs : list File) : FileSource :=
  {| HasInput := hasInput;
     HasOutput := hasOutput;
     Input := inr (input fs);
     Output := Err |}.

End demo.

(** * Properties *)

Section Properties.
Context `{files.Pkg, yamlmeta.Pkg, !yamlmeta.Ops, workspace.Types,
          !workspace.Ops, !Flags}.

Implicit Types (o : TemplateOptions) (inp : TemplateInput).
Implicit Types (ev : Event) (err : error).

(** ** The model follows the path rules *)

Lemma foldl_appendPath (fs : list workspace.FileInLibrary)
    (acc : list yamlmeta.ArrayItem) :
  foldl appendPath (yamlmeta.MkArray acc) fs
  = yamlmeta.MkArray (acc ++ pathItems fs).
Proof.
  revert acc. induction fs as [|f fs IH]; intros acc; simpl.
  - by rewrite app_nil_r.
  - unfold appendPath at 2. simpl. rewrite IH, <- app_assoc. done.
Qed.

Lemma inspectFiles_listing o (lib : workspace.Library) :
  inspectFiles o lib
  = ([EvListAccessibleFiles lib],
     listingOf
       (workspace.SortFilesInLibrary (workspace.ListAccessibleFiles lib))).
Proof.
  unfold inspectFiles, listingOf. by rewrite foldl_appendPath.
Qed.

Lemma pickSchema_view o (docs : list yamlmeta.Document) :
  GateView o docs (pickSchema o docs).1 (pickSchema o docs).2.
Proof.
  unfold pickSchema.
  destruct docs as [|doc rest], (SchemaEnabled o) eqn:Hflag; simpl;
    try (by constructor).
  unfold mbind, Flow_bind, call.
  destruct (yamlmeta.NewDocumentSchema doc) as [err|s] eqn:Hnew; simpl;
    by constructor.
Qed.

#[local] Arguments pickSchema : simpl never.

Lemma RunWithFiles_view o inp :
  RunView o inp (RunWithFiles o inp).1 (RunWithFiles o inp).2.
Proof.
  unfold RunWithFiles, finish, mbind, Flow_bind, call.
  destruct (Apply _ _) as [err|files] eqn:Happly; simpl;
    [by constructor|].
  destruct (InspectFiles o) eqn:Hfiles; simpl.
  { rewrite foldl_appendPath. by constructor. }
  destruct (AsOverlays _ _) as [err|[vo lvo]] eqn:Hflags; simpl;
    [by constructor|].
  destruct (workspace.Schemas _) as [err|docs] eqn:Hdocs; simpl;
    [by constructor|].
  pose proof (pickSchema_view o docs) as Hgate.
  destruct (pickSchema o docs) as [g [out|schema]]; simpl in *.
  { by eapply (RunGateStop o inp). }
  destruct (workspace.Values _ _ _) as [err|[values lv]] eqn:Hvalues; simpl.
  { by eapply (RunValuesErr o inp). }
  destruct (Inspect _) eqn:Hinspect; simpl.
  { by eapply (RunValuesInspect o inp). }
  destruct (workspace.Eval _ _ _) as [err|res] eqn:Heval; simpl.
  - by eapply (RunEvalErr o inp).
  - by eapply (RunEvalOk o inp).
Qed.

(** Case analysis on the path of a run, then on the branch of the gate;
    the facts of the path are rewritten wherever they occur. *)
Ltac gate_cases :=
  repeat match goal with
  | Hg : GateView _ _ _ _ |- _ => inversion Hg; subst; clear Hg
  end.

(** Two facts about the same call agree, or the path is impossible. *)
Ltac agree :=
  repeat match goal with
  | H1 : ?x = ?a, H2 : ?x = ?b |- _ =>
      first [ constr_eq a b; clear H2 | rewrite H1 in H2; simplify_eq ]
  end.

Ltac run_cases o inp :=
  destruct (RunWithFiles_view o inp); gate_cases; unfold uptoGate in *;
  agree.

Ltac in_log :=
  repeat match goal with
  | Hin : _ ∈ _ |- _ => progress decompose_list_elem_of
  | Hl : listed _ |- _ => destruct Hl as [? ?]
  | Hl : parsedFlags _ |- _ => destruct Hl as (? & ? & ?)
  | Hl : resolved _ |- _ => destruct Hl as (? & ? & ? & ?)
  | Hl : evaluated _ |- _ => destruct Hl as (? & ? & ? & ?)
  | Hl : warned _ |- _ => destruct Hl as [? ?]
  | Hl : builtSchema _ |- _ => destruct Hl as (? & ? & ?)
  end.

Ltac log_has := simpl; by repeat constructor.

(** The logged call that came back with the error of the goal. *)
Ltac failed_call :=
  simpl;
  match goal with
  | |- ∃ ev, ev ∈ ?l ∧ _ =>
      let rec go l :=
        lazymatch l with
        | ?x :: ?xs =>
            first [ exists x; split; [by repeat constructor | reflexivity]
                  | go xs ]
        end in
      go l
  end.

(** ** C3: an error of a stage is the whole result *)


(** ** C1: the schema gate *)

(** C1.  In a run that reaches the schema gate (file marks applied, not
    files-inspect, flags parsed, schema documents loaded), the four
    combinations of "a schema document is present" and [SchemaEnabled]
    give: present and enabled, the schema is built from the first
    document and values resolution runs with it, without warning (or the
    run fails with the error of the construction); present and disabled,
    the warning is written and values resolution runs with [AnySchema],
    nothing being built; absent and enabled, the run fails with the
    configuration error before values resolution; absent and disabled,
    values resolution runs with [AnySchema], silently. *)
Theorem schema_gate_matrix o inp files vo lvo docs :
  Apply (FileMarksOpts o) (Input_Files inp) = inr files →
  InspectFiles o = false →
  AsOverlays (DataValuesFlags o) (StrictYAML o) = inr (vo, lvo) →
  workspace.Schemas (newLibraryLoader o (workspace.NewRootLibrary files))
    = inr docs →
  match docs, SchemaEnabled o with
  | doc :: _, true =>
      EvNewDocumentSchema doc (yamlmeta.NewDocumentSchema doc)
        ∈ (RunWithFiles o inp).1 ∧
      ¬ warned (RunWithFiles o inp).1 ∧
      match yamlmeta.NewDocumentSchema doc with
      | inr s => usesSchema (RunWithFiles o inp).1 (yamlmeta.TypedSchema s)
      | inl err =>
          Err (RunWithFiles o inp).2 = Some err ∧
          (RunWithFiles o inp).2
            = {| Files := []; DocSet := None; Err := Some err |} ∧
          ¬ resolved (RunWithFiles o inp).1
      end
  | _ :: _, false =>
      EvWarnf schemaNotEnabledWarning ∈ (RunWithFiles o inp).1 ∧
      ¬ builtSchema (RunWithFiles o inp).1 ∧
      usesSchema (RunWithFiles o inp).1 yamlmeta.AnySchema
  | [], true =>
      Err (RunWithFiles o inp).2 = Some schemaMissingError ∧
      (RunWithFiles o inp).2
        = {| Files := []; DocSet := None; Err := Some schemaMissingError |} ∧
      ¬ warned (RunWithFiles o inp).1 ∧
      ¬ resolved (RunWithFiles o inp).1
  | [], false =>
      ¬ warned (RunWithFiles o inp).1 ∧
      ¬ builtSchema (RunWithFiles o inp).1 ∧
      usesSchema (RunWithFiles o inp).1 yamlmeta.AnySchema
  end.
Proof.
  intros Happly Hfiles Hflags Hdocs.
  run_cases o inp.
  all: repeat match goal with
    | Hen : SchemaEnabled _ = _ |- _ => rewrite Hen; clear Hen
    | Hnew : yamlmeta.NewDocumentSchema _ = _ |- _ => rewrite Hnew; clear Hnew
    end.
  all: unfold usesSchema; repeat split.
  all: try reflexivity.
  all: try (intros ?; in_log; by simplify_eq).
  all: try (intros; in_log; by simplify_eq).
  all: try (eexists _, _).
  all: lazymatch goal with
       | |- _ ∈ _ => log_has
       end.
Qed.

(** ** C2, C9: files-inspect mode *)

Lemma SortFilesInLibrary_Permutation (fs : list workspace.FileInLibrary) :
  workspace.SortFilesInLibrary fs ≡ₚ fs.
Proof. apply merge_sort_Permutation. Qed.

Lemma SortFilesInLibrary_StronglySorted (fs : list workspace.FileInLibrary) :
  Total workspace.OrderLe → Transitive workspace.OrderLe →
  StronglySorted workspace.OrderLe (workspace.SortFilesInLibrary fs).
Proof. intros Htotal Htrans. by apply StronglySorted_merge_sort. Qed.

(** C2, as amended.  In files-inspect mode no run resolves values or
    invokes the evaluator, whatever the templates contain.  When
    file-mark application succeeds, the output is a single document and
    no error: an array with one entry per file accessible from the root
    library, ordered by the total order of [SortFilesInLibrary], each
    entry the relative path of its file.  When file-mark application
    fails, the output is that error, with no files and no document. *)
Theorem files_inspect_listing o inp :
  Total workspace.OrderLe → Transitive workspace.OrderLe →
  InspectFiles o = true →
  ¬ resolved (RunWithFiles o inp).1 ∧
  ¬ evaluated (RunWithFiles o inp).1 ∧
  (∀ files,
    Apply (FileMarksOpts o) (Input_Files inp) = inr files →
    ∃ sorted,
      sorted ≡ₚ workspace.ListAccessibleFiles (workspace.NewRootLibrary files) ∧
      StronglySorted workspace.OrderLe sorted ∧
      (RunWithFiles o inp).2 =
        {| Files := [];
           DocSet :=
             Some (yamlmeta.MkDocumentSet
               [yamlmeta.MkDocument
                  (yamlmeta.AnyArray
                     (yamlmeta.MkArray
                        ((λ f, yamlmeta.MkArrayItem
                                 (yamlmeta.AnyString
                                    (files.RelativePath (workspace.File f))))
                           <$> sorted)))]);
           Err := None |}) ∧
  (∀ err,
     Apply (FileMarksOpts o) (Input_Files inp) = inl err →
     Err (RunWithFiles o inp).2 = Some err ∧
     DocSet (RunWithFiles o inp).2 = None ∧
     (RunWithFiles o inp).2
       = {| Files := []; DocSet := None; Err := Some err |}).
Proof.
  intros Htotal Htrans Hmode.
  split; [|split; [|split]].
  - intros Hl. run_cases o inp; in_log; by simplify_eq.
  - intros Hl. run_cases o inp; in_log; by simplify_eq.
  - intros files Happly.
    exists (workspace.SortFilesInLibrary
              (workspace.ListAccessibleFiles (workspace.NewRootLibrary files))).
    split; [apply SortFilesInLibrary_Permutation|].
    split; [by apply SortFilesInLibrary_StronglySorted|].
    run_cases o inp.
    all: by simplify_eq.
  - intros err Happly.
    run_cases o inp.
    all: simplify_eq.
    all: by repeat split.
Qed.

(** C9.  In files-inspect mode the data-values flags are never parsed:
    when file-mark application succeeds the run returns the listing, also
    for flags whose parsing fails and makes the same run without the
    files-inspect flag fail with that error; when file-mark application
    fails, the run fails with its error. *)
Theorem files_inspect_skips_flag_parsing o inp :
  InspectFiles o = true →
  ¬ parsedFlags (RunWithFiles o inp).1 ∧
  (∀ files,
     Apply (FileMarksOpts o) (Input_Files inp) = inr files →
     (RunWithFiles o inp).2 =
       listingOf
         (workspace.SortFilesInLibrary
            (workspace.ListAccessibleFiles (workspace.NewRootLibrary files))) ∧
     ∀ err,
       AsOverlays (DataValuesFlags o) (StrictYAML o) = inl err →
       Err (RunWithFiles o inp).2 = None ∧
       (RunWithFiles (withInspectFiles false o) inp).2
         = {| Files := []; DocSet := None; Err := Some err |}) ∧
  (∀ err,
     Apply (FileMarksOpts o) (Input_Files inp) = inl err →
     (RunWithFiles o inp).2
       = {| Files := []; DocSet := None; Err := Some err |}).
Proof.
  intros Hmode. repeat split.
  - intros Hl. run_cases o inp; in_log; by simplify_eq.
  - run_cases o inp.
    all: by simplify_eq.
  - run_cases o inp.
    all: by simplify_eq.
  - run_cases (withInspectFiles false o) inp.
    all: simpl in *; agree.
    all: by simplify_eq.
  - intros err Happly.
    run_cases o inp.
    all: by simplify_eq.
Qed.

(** ** C5: values-inspect mode *)


(** ** C7: one mode per run *)

Lemma modeOf_flags o :
  (modeOf o = FilesInspect ↔ InspectFiles o = true) ∧
  (modeOf o = ValuesInspect ↔
     InspectFiles o = false ∧ Inspect (DataValuesFlags o) = true) ∧
  (modeOf o = Normal ↔
     InspectFiles o = false ∧ Inspect (DataValuesFlags o) = false).
Proof.
  unfold modeOf.
  destruct (InspectFiles o), (Inspect (DataValuesFlags o));
    repeat split; by (intros; try destruct_and?).
Qed.

(** C7.  Every setting of the two flags selects one mode, files-inspect
    taking precedence when both are set, and a run does the work of that
    mode only: a run that lists files is in files-inspect mode and
    neither parses flags, resolves values nor evaluates; a run that
    evaluates is in normal mode; a values-inspect run neither lists files
    nor evaluates; and a run that ends without error returns the output
    of its mode: the listing, the values document, or the result of the
    evaluation.  No setting of the flags is rejected. *)
Theorem modes_exclusive o inp :
  (∃ m, modeOf o = m ∧ ∀ m', modeOf o = m' → m' = m) ∧
  (InspectFiles o = true → Inspect (DataValuesFlags o) = true →
   modeOf o = FilesInspect) ∧
  (listed (RunWithFiles o inp).1 → modeOf o = FilesInspect) ∧
  (evaluated (RunWithFiles o inp).1 → modeOf o = Normal) ∧
  (modeOf o = FilesInspect →
   ¬ parsedFlags (RunWithFiles o inp).1 ∧
   ¬ resolved (RunWithFiles o inp).1 ∧
   ¬ evaluated (RunWithFiles o inp).1) ∧
  (modeOf o = ValuesInspect →
   ¬ listed (RunWithFiles o inp).1 ∧ ¬ evaluated (RunWithFiles o inp).1) ∧
  (modeOf o = Normal → ¬ listed (RunWithFiles o inp).1) ∧
  (Err (RunWithFiles o inp).2 = None →
   match modeOf o with
   | FilesInspect =>
       ∃ files,
         Apply (FileMarksOpts o) (Input_Files inp) = inr files ∧
         (RunWithFiles o inp).2 =
           listingOf
             (workspace.SortFilesInLibrary
                (workspace.ListAccessibleFiles
                   (workspace.NewRootLibrary files)))
   | ValuesInspect =>
       ∃ overlays schema values lv,
         EvValues overlays schema (inr (values, lv)) ∈ (RunWithFiles o inp).1 ∧
         (RunWithFiles o inp).2 =
           OutputDocSet (yamlmeta.MkDocumentSet [workspace.Doc values])
   | Normal =>
       ∃ values libraryValues res,
         EvEval values libraryValues (inr res) ∈ (RunWithFiles o inp).1 ∧
         (RunWithFiles o inp).2 =
           {| Files := workspace.Files res;
              DocSet := workspace.DocSet res;
              Err := None |}
   end).
Proof.
  destruct (modeOf_flags o) as (Hf & Hv & Hn).
  split; [by eexists|].
  split; [by intros ?%Hf|].
  split.
  { intros Hl. apply Hf. run_cases o inp; in_log; by simplify_eq. }
  split.
  { intros Hl. apply Hn. run_cases o inp; in_log; by simplify_eq. }
  split.
  { intros Hm%Hf.
    repeat split; intros Hl; run_cases o inp; in_log; by simplify_eq. }
  split.
  { intros [Hm1 Hm2]%Hv.
    repeat split; intros Hl; run_cases o inp; in_log; by simplify_eq. }
  split.
  { intros [Hm1 Hm2]%Hn Hl. run_cases o inp; in_log; by simplify_eq. }
  intros Hok. unfold modeOf.
  run_cases o inp; simplify_eq/=;
    repeat match goal with
    | Hb : InspectFiles o = _ |- _ => rewrite Hb; clear Hb
    | Hb : Inspect _ = _ |- _ => rewrite Hb; clear Hb
    end.
  - by eexists.
  - eexists _, _, _, _. split; [log_has|done].
  - eexists _, _, _, _. split; [log_has|done].
  - eexists _, _, _, _. split; [log_has|done].
  - eexists _, _, _. split; [log_has|done].
  - eexists _, _, _. split; [log_has|done].
  - eexists _, _, _. split; [log_has|done].
Qed.

(** ** C4: more than one schema document *)

(** C4, as amended.  When the root scope yields one or more schema
    documents, RunWithFiles looks at the first only: the documents after
    it change nothing in the choice of the schema, no other document is
    given to the schema construction, and if the run fails, it fails with
    the error one of its calls returned, not for the number of schema
    documents. *)
Theorem extra_schema_documents_ignored o inp files vo lvo doc rest :
  Apply (FileMarksOpts o) (Input_Files inp) = inr files →
  InspectFiles o = false →
  AsOverlays (DataValuesFlags o) (StrictYAML o) = inr (vo, lvo) →
  workspace.Schemas (newLibraryLoader o (workspace.NewRootLibrary files))
    = inr (doc :: rest) →
  pickSchema o (doc :: rest) = pickSchema o [doc] ∧
  (∀ doc' res,
     EvNewDocumentSchema doc' res ∈ (RunWithFiles o inp).1 → doc' = doc) ∧
  (∀ err,
     Err (RunWithFiles o inp).2 = Some err →
     ∃ ev, ev ∈ (RunWithFiles o inp).1 ∧ stageError ev = Some err).
Proof.
  intros Happly Hfiles Hflags Hdocs.
  split; [reflexivity|]. split.
  - intros doc' res Hin. run_cases o inp; in_log; by simplify_eq.
  - intros err Herr.
    run_cases o inp; simplify_eq/=; failed_call.
Qed.

(** ** C10: the library values given to the evaluation *)



(** ** C6: [pickSource] *)

Lemma pickLoop_first (pre post : list FileSource) (src : FileSource)
    (pickFunc : FileSource → bool) :
  Forall (λ s, pickFunc s = false) pre →
  pickFunc src = true →
  pickLoop (pre ++ src :: post) pickFunc = Some src.
Proof.
  intros Hpre Hsrc. induction Hpre as [|s pre Hs _ IH]; simpl.
  - by rewrite Hsrc.
  - by rewrite Hs.
Qed.

Lemma pickLoop_none (srcs : list FileSource) (pickFunc : FileSource → bool) :
  Forall (λ s, pickFunc s = false) srcs →
  pickLoop srcs pickFunc = None.
Proof.
  intros Hall. induction Hall as [|s srcs Hs _ IH]; simpl; [done|].
  by rewrite Hs.
Qed.

Lemma pickSource_is_Some o (srcs : list FileSource)
    (pickFunc : FileSource → bool) :
  srcs ≠ [] → is_Some (pickSource o srcs pickFunc).
Proof.
  intros Hne. unfold pickSource.
  destruct (pickLoop srcs pickFunc) as [src|]; [by eexists|].
  apply lookup_lt_is_Some.
  destruct srcs as [|s srcs]; [done|]. simpl. lia.
Qed.

(** C6.  On a non-empty list of sources, [pickSource] returns the first
    source in list order that the predicate accepts, and the last source
    of the list when the predicate accepts none; it always returns a
    source. *)
Theorem pickSource_first_or_last o (srcs : list FileSource)
    (pickFunc : FileSource → bool) :
  srcs ≠ [] →
  (∀ pre src post,
     srcs = pre ++ src :: post →
     Forall (λ s, pickFunc s = false) pre →
     pickFunc src = true →
     pickSource o srcs pickFunc = Some src) ∧
  (Forall (λ s, pickFunc s = false) srcs →
   pickSource o srcs pickFunc = last srcs) ∧
  is_Some (pickSource o srcs pickFunc).
Proof.
  intros Hne. split; [|split].
  - intros pre src post -> Hpre Hsrc. unfold pickSource.
    by rewrite pickLoop_first.
  - intros Hall. unfold pickSource.
    rewrite pickLoop_none by done.
    by rewrite last_lookup, Nat.sub_1_r.
  - by apply pickSource_is_Some.
Qed.

(** [Run] calls [pickSource] on its two sources: it does not panic. *)
Lemma Run_no_panic o (bulk regular : FileSource) :
  is_Some (Run o bulk regular).
Proof.
  unfold Run.
  destruct (pickSource_is_Some o [bulk; regular] HasInput) as [src ->];
    [done|].
  destruct (pickSource_is_Some o [bulk; regular] HasOutput) as [dst ->];
    [done|].
  simpl. by destruct (Input src).
Qed.

(** * Further properties of [cmd.go] *)

(** ** [pickSource] *)

Lemma pickLoop_Some (srcs : list FileSource) (pickFunc : FileSource → bool)
    (src : FileSource) :
  pickLoop srcs pickFunc = Some src → src ∈ srcs ∧ pickFunc src = true.
Proof.
  induction srcs as [|s srcs IH]; simpl; [done|].
  destruct (pickFunc s) eqn:Hs.
  - intros [= ->]. split; [by left|done].
  - intros Hrest. destruct (IH Hrest) as [Hin Hsrc]. split; [by right|done].
Qed.

Lemma pickLoop_None (srcs : list FileSource) (pickFunc : FileSource → bool) :
  pickLoop srcs pickFunc = None → Forall (λ s, pickFunc s = false) srcs.
Proof.
  induction srcs as [|s srcs IH]; simpl; [by constructor|].
  destruct (pickFunc s) eqn:Hs; [done|].
  intros Hrest. constructor; [done|by apply IH].
Qed.

(** X1.  [pickSource] panics (index out of range) on the empty slice and
    on no other. *)
Theorem pickSource_panics_iff_empty o (srcs : list FileSource)
    (pickFunc : FileSource → bool) :
  pickSource o srcs pickFunc = None ↔ srcs = [].
Proof.
  split.
  - intros Hnone. destruct srcs as [|s srcs]; [done|].
    destruct (pickSource_is_Some o (s :: srcs) pickFunc) as [src Hsrc];
      [done|congruence].
  - by intros ->.
Qed.

(** X2.  The source [pickSource] returns is one of the slice; either the
    predicate accepts it, or the predicate accepts no source at all and
    it is the last one.  So when some source is accepted, the one
    returned is accepted. *)
Theorem pickSource_sound o (srcs : list FileSource)
    (pickFunc : FileSource → bool) (src : FileSource) :
  pickSource o srcs pickFunc = Some src →
  src ∈ srcs ∧
  (pickFunc src = true ∨
   Forall (λ s, pickFunc s = false) srcs ∧ last srcs = Some src) ∧
  (Exists (λ s, pickFunc s = true) srcs → pickFunc src = true).
Proof.
  unfold pickSource. intros Hpick.
  destruct (pickLoop srcs pickFunc) as [src'|] eqn:Hloop.
  - injection Hpick as ->. apply pickLoop_Some in Hloop as [Hin Hsrc].
    by repeat split; [|left|].
  - apply pickLoop_None in Hloop.
    assert (Hlast : last srcs = Some src)
      by (by rewrite last_lookup, <- Nat.sub_1_r).
    split; [by apply last_Some_elem_of|].
    split; [by right|].
    intros Hex. apply Exists_exists in Hex as (s & Hs & Hacc).
    rewrite Forall_forall in Hloop. specialize (Hloop s Hs). congruence.
Qed.

Lemma pickSource_of_two o (bulk regular : FileSource)
    (pickFunc : FileSource → bool) :
  pickSource o [bulk; regular] pickFunc
  = Some (pickedOf pickFunc bulk regular).
Proof.
  unfold pickSource, pickedOf. simpl.
  destruct (pickFunc bulk); [done|]. by destruct (pickFunc regular).
Qed.

(** X3.  Of two sources, [pickSource] returns the first when the
    predicate accepts it and the second otherwise, whether or not the
    predicate accepts the second. *)
Theorem pickSource_pair o (bulk regular : FileSource)
    (pickFunc : FileSource → bool) :
  pickSource o [bulk; regular] pickFunc
  = Some (pickedOf pickFunc bulk regular).
Proof. apply pickSource_of_two. Qed.

(** X4.  Sources after an accepted one are never looked at: when the
    predicate accepts a source of [srcs], appending further sources does
    not change the result. *)
Theorem pickSource_ignores_later_sources o (srcs more : list FileSource)
    (pickFunc : FileSource → bool) :
  Exists (λ s, pickFunc s = true) srcs →
  pickSource o (srcs ++ more) pickFunc = pickSource o srcs pickFunc.
Proof.
  intros Hex. unfold pickSource.
  assert (Hloop : ∃ src, pickLoop srcs pickFunc = Some src ∧
                         pickLoop (srcs ++ more) pickFunc = Some src).
  { induction Hex as [s srcs Hs|s srcs Hex IH]; simpl.
    - rewrite Hs. by eexists.
    - destruct (pickFunc s); [by eexists|done]. }
  destruct Hloop as (src & -> & ->). done.
Qed.

(** ** [Run] *)

(** X5.  [Run] reads its input from the bulk source when that has input
    and from the regular source otherwise.  When reading fails, [Run]
    returns that error and nothing of the pipeline runs.  Otherwise it
    runs the pipeline once and returns what [Output] of the bulk source,
    when that has output, and of the regular source otherwise, returns
    for the pipeline's output: an error of the pipeline is handed to
    [Output] like a result. *)
Theorem Run_reads_then_writes o (bulk regular : FileSource) :
  match Input (pickedOf HasInput bulk regular) with
  | inl err => Run o bulk regular = Some ([], Some err)
  | inr inp =>
      Run o bulk regular
      = Some ((RunWithFiles o inp).1,
              Output (pickedOf HasOutput bulk regular) (RunWithFiles o inp).2)
  end.
Proof.
  unfold Run. rewrite !pickSource_of_two. simpl.
  by destruct (Input (pickedOf HasInput bulk regular)).
Qed.

(** ** The log of [RunWithFiles] *)



(** X7.  [RunWithFiles] stops at the first call that fails: a failed call
    is the last event of the log, so nothing is called and no warning is
    written after it. *)
Theorem RunWithFiles_stops_at_failure o inp ev err :
  ev ∈ (RunWithFiles o inp).1 →
  stageError ev = Some err →
  last (RunWithFiles o inp).1 = Some ev.
Proof.
  intros Hin Herr. run_cases o inp; in_log; by simplify_eq/=.
Qed.

(** X8.  Every run starts with the file-mark application, and the calls
    of a run follow the order of the body: the places of the logged
    events increase strictly, so no call is made twice and, for one,
    values are never resolved before the flags are parsed and the schema
    documents loaded. *)
Theorem RunWithFiles_log_ordered o inp :
  (RunWithFiles o inp).1 !! 0
    = Some (EvApply (Apply (FileMarksOpts o) (Input_Files inp))) ∧
  StronglySorted lt (stageIndex <$> (RunWithFiles o inp).1) ∧
  NoDup (stageIndex <$> (RunWithFiles o inp).1).
Proof.
  assert (Hsorted : (RunWithFiles o inp).1 !! 0
            = Some (EvApply (Apply (FileMarksOpts o) (Input_Files inp))) ∧
          StronglySorted lt (stageIndex <$> (RunWithFiles o inp).1)).
  { run_cases o inp; simpl;
      (split; [congruence|]);
      repeat (constructor; [|by repeat (constructor; [simpl; lia|])]);
      by constructor. }
  destruct Hsorted as [Hhead Hsorted]. repeat split; [done..|].
  clear Hhead. induction Hsorted as [|n ns Hsorted IH Hall]; constructor.
  - intros Hin. rewrite Forall_forall in Hall.
    specialize (Hall n Hin). lia.
  - done.
Qed.

(** X9.  The calls of a run are made with the values of the options and
    of the calls before them: the flags are parsed with the [StrictYAML]
    of the options; the library that is printed and listed is the root
    library of the files the file-mark application returned; values are
    resolved with exactly the values overlays the flag parsing returned;
    and the schema construction is given the first document the schema
    loading returned. *)
Theorem RunWithFiles_log_faithful o inp :
  (∀ strict res,
     EvAsOverlays strict res ∈ (RunWithFiles o inp).1 →
     strict = StrictYAML o ∧
     res = AsOverlays (DataValuesFlags o) (StrictYAML o)) ∧
  (∀ lib,
     EvPrint lib ∈ (RunWithFiles o inp).1 ∨
     EvListAccessibleFiles lib ∈ (RunWithFiles o inp).1 →
     ∃ files,
       Apply (FileMarksOpts o) (Input_Files inp) = inr files ∧
       lib = workspace.NewRootLibrary files) ∧
  (∀ overlays schema res,
     EvValues overlays schema res ∈ (RunWithFiles o inp).1 →
     ∃ files lvo,
       Apply (FileMarksOpts o) (Input_Files inp) = inr files ∧
       AsOverlays (DataValuesFlags o) (StrictYAML o) = inr (overlays, lvo) ∧
       res = workspace.Values
               (newLibraryLoader o (workspace.NewRootLibrary files))
               overlays schema) ∧
  (∀ doc res,
     EvNewDocumentSchema doc res ∈ (RunWithFiles o inp).1 →
     res = yamlmeta.NewDocumentSchema doc ∧
     ∃ rest, EvSchemas (inr (doc :: rest)) ∈ (RunWithFiles o inp).1).
Proof.
  split; [|split; [|split]].
  - intros strict res Hin. run_cases o inp; in_log; by simplify_eq.
  - intros lib [Hin|Hin]; run_cases o inp; in_log; simplify_eq;
      by eexists.
  - intros overlays schema res Hin.
    run_cases o inp; in_log; simplify_eq; by eexists _, _.
  - intros doc res Hin.
    run_cases o inp; in_log; simplify_eq;
      (split; [done|eexists; log_has]).
Qed.

(** X10.  The schema flag decides, in every run, what the schema gate may
    do.  Without the flag no schema is ever constructed, values are
    resolved with [AnySchema] only, and the run cannot fail with the
    missing-schema error of the gate.  With the flag no warning is
    written, and values are resolved only with a schema constructed from
    a schema document in that run. *)
Theorem schema_flag_decides o inp :
  (SchemaEnabled o = false →
   ¬ builtSchema (RunWithFiles o inp).1 ∧
   (∀ overlays schema res,
      EvValues overlays schema res ∈ (RunWithFiles o inp).1 →
      schema = yamlmeta.AnySchema) ∧
   (∀ err,
      Err (RunWithFiles o inp).2 = Some err →
      ∃ ev, ev ∈ (RunWithFiles o inp).1 ∧ stageError ev = Some err)) ∧
  (SchemaEnabled o = true →
   ¬ warned (RunWithFiles o inp).1 ∧
   (∀ overlays schema res,
      EvValues overlays schema res ∈ (RunWithFiles o inp).1 →
      ∃ doc s,
        EvNewDocumentSchema doc (inr s) ∈ (RunWithFiles o inp).1 ∧
        schema = yamlmeta.TypedSchema s)).
Proof.
  split; intros Hflag.
  - split; [|split].
    + intros Hl. run_cases o inp; in_log; simplify_eq; congruence.
    + intros overlays schema res Hin.
      run_cases o inp; in_log; simplify_eq; congruence.
    + intros err Herr.
      run_cases o inp; simplify_eq/=; first [congruence | failed_call].
  - split.
    + intros Hl. run_cases o inp; in_log; simplify_eq; congruence.
    + intros overlays schema res Hin.
      run_cases o inp; in_log; simplify_eq; try congruence;
        (eexists _, _; split; [log_has|done]).
Qed.

(** X11.  The only warning [RunWithFiles] writes is the one about a
    schema document without the schema flag, and it writes it exactly in
    the runs, not in files-inspect mode, where the schema loading
    returned at least one document and the flag is not set; the warning
    does not fail the run. *)
Theorem warning_iff o inp :
  (∀ msg, EvWarnf msg ∈ (RunWithFiles o inp).1 →
          msg = schemaNotEnabledWarning) ∧
  (warned (RunWithFiles o inp).1 ↔
   SchemaEnabled o = false ∧
   ∃ doc rest, EvSchemas (inr (doc :: rest)) ∈ (RunWithFiles o inp).1) ∧
  (warned (RunWithFiles o inp).1 →
   ∀ err, Err (RunWithFiles o inp).2 = Some err →
          ∃ ev, ev ∈ (RunWithFiles o inp).1 ∧ stageError ev = Some err).
Proof.
  split; [|split; [split|]].
  - intros msg Hin. run_cases o inp; in_log; by simplify_eq.
  - intros Hw. run_cases o inp; in_log; simplify_eq;
      (split; [done|eexists _, _; log_has]).
  - intros (Hflag & doc & rest & Hin).
    run_cases o inp; in_log; simplify_eq; try congruence;
      (eexists; log_has).
  - intros Hw err Herr.
    run_cases o inp; in_log; simplify_eq/=; failed_call.
Qed.

(** X12.  In files-inspect mode the run depends on the options through
    the file marks only: two settings of the options with the
    files-inspect flag and the same file marks give the same log and the
    same output, whatever their schema flag, strictness and data-values
    flags. *)
Theorem files_inspect_reads_file_marks_only o o' inp :
  InspectFiles o = true →
  InspectFiles o' = true →
  FileMarksOpts o = FileMarksOpts o' →
  RunWithFiles o inp = RunWithFiles o' inp.
Proof.
  intros Ho Ho' Hmarks.
  unfold RunWithFiles, finish, mbind, Flow_bind, call.
  rewrite <- Hmarks.
  destruct (Apply _ _) as [err|files]; simpl; [done|].
  by rewrite Ho, Ho'.
Qed.

(** X13.  A values-inspect run is the normal run cut short before the
    evaluation.  With the values-inspect flag taken off and the flags
    parsing to the same overlays, the normal run makes the same calls
    with the same results and then, if none failed, calls the evaluation:
    the log of the values-inspect run is a prefix of the log of the
    normal run, an error of the values-inspect run is the output of the
    normal run too, and a values-inspect run without error is followed by
    exactly one more call, the evaluation of the values it returns. *)
Theorem values_inspect_is_normal_cut_short o dvf inp :
  InspectFiles o = false →
  Inspect (DataValuesFlags o) = true →
  Inspect dvf = false →
  AsOverlays dvf (StrictYAML o)
    = AsOverlays (DataValuesFlags o) (StrictYAML o) →
  (RunWithFiles o inp).1
    `prefix_of` (RunWithFiles (withDataValuesFlags dvf o) inp).1 ∧
  (∀ err,
     Err (RunWithFiles o inp).2 = Some err →
     RunWithFiles (withDataValuesFlags dvf o) inp = RunWithFiles o inp) ∧
  (Err (RunWithFiles o inp).2 = None →
   ∃ values libraryValues res,
     (RunWithFiles o inp).2
       = OutputDocSet (yamlmeta.MkDocumentSet [workspace.Doc values]) ∧
     (RunWithFiles (withDataValuesFlags dvf o) inp).1
       = (RunWithFiles o inp).1 ++ [EvEval values libraryValues res]).
Proof.
  intros Hfiles Hinspect Hnormal Hflags.
  rewrite (surjective_pairing (RunWithFiles o inp)).
  rewrite (surjective_pairing (RunWithFiles (withDataValuesFlags dvf o) inp)).
  destruct (RunWithFiles_view o inp);
    destruct (RunWithFiles_view (withDataValuesFlags dvf o) inp);
    gate_cases; unfold uptoGate, newLibraryLoader in *; simpl in *;
    try rewrite Hflags in *; agree; try congruence.
  all: repeat split; try done;
    try (by eexists; rewrite <- ?app_assoc; simpl);
    try (intros; eexists _, _, _; split; [done|];
         by rewrite <- ?app_assoc).
Qed.

(** X14.  The root library is printed to the debug writer in every mode,
    right after the file marks are applied and before the mode is looked
    at: the log holds the print exactly when the file-mark application
    succeeded.  The files are listed exactly when, moreover, the
    files-inspect flag is set. *)
Theorem library_printed_in_every_mode o inp :
  ((∃ lib, EvPrint lib ∈ (RunWithFiles o inp).1) ↔
   ∃ files, Apply (FileMarksOpts o) (Input_Files inp) = inr files) ∧
  (∀ files,
     Apply (FileMarksOpts o) (Input_Files inp) = inr files →
     (RunWithFiles o inp).1 !! 1
       = Some (EvPrint (workspace.NewRootLibrary files))) ∧
  (listed (RunWithFiles o inp).1 ↔
   InspectFiles o = true ∧
   ∃ files, Apply (FileMarksOpts o) (Input_Files inp) = inr files).
Proof.
  split; [split|split; [|split]].
  - intros [lib Hin]. run_cases o inp; in_log; simplify_eq; by eexists.
  - intros [files Happly]. run_cases o inp; simplify_eq; eexists; log_has.
  - intros files Happly. run_cases o inp; by simplify_eq.
  - intros Hl. run_cases o inp; in_log; simplify_eq; (split; [done|by eexists]).
  - intros [Hflag [files Happly]].
    run_cases o inp; simplify_eq; try congruence; eexists; log_has.
Qed.

(** ** [inspectFiles] *)

(** X15.  [inspectFiles] cannot fail and logs one call: for every
    library, also one without accessible files, it returns one document
    holding an array, no files and no error.  The array has as many
    entries as the library has accessible files; its entries are strings,
    and as a collection they are the relative paths of those files, a
    path occurring as often as files have it. *)
Theorem inspectFiles_one_entry_per_file o (lib : workspace.Library) :
  ∃ entries,
    (inspectFiles o lib).2
      = {| Files := [];
           DocSet :=
             Some (yamlmeta.MkDocumentSet
                     [yamlmeta.MkDocument
                        (yamlmeta.AnyArray
                           (yamlmeta.MkArray
                              ((λ p, yamlmeta.MkArrayItem (yamlmeta.AnyString p))
                                 <$> entries)))]);
           Err := None |} ∧
    (inspectFiles o lib).1 = [EvListAccessibleFiles lib] ∧
    length entries = length (workspace.ListAccessibleFiles lib) ∧
    entries ≡ₚ (λ f, files.RelativePath (workspace.File f))
                 <$> workspace.ListAccessibleFiles lib.
Proof.
  exists ((λ f, files.RelativePath (workspace.File f))
            <$> workspace.SortFilesInLibrary
                  (workspace.ListAccessibleFiles lib)).
  rewrite inspectFiles_listing. simpl.
  pose proof (SortFilesInLibrary_Permutation
                (workspace.ListAccessibleFiles lib)) as Hperm.
  split; [|split; [done|split]].
  - unfold listingOf, pathItems, OutputDocSet.
    by rewrite <- list_fmap_compose.
  - by rewrite length_fmap, Hperm.
  - by rewrite Hperm.
Qed.

End Properties.

(** * The properties on the small instance *)

Section Demo.
Import demo.

Lemma string_compare_le_trans (s1 s2 s3 : string) :
  String.compare s1 s2 ≠ Gt → String.compare s2 s3 ≠ Gt →
  String.compare s1 s3 ≠ Gt.
Proof.
  revert s2 s3. induction s1 as [|c1 s1 IH]; intros [|c2 s2] [|c3 s3];
    simpl; try done.
  unfold Ascii.compare.
  destruct (N.compare_spec (N_of_ascii c1) (N_of_ascii c2)) as [E12|L12|G12],
           (N.compare_spec (N_of_ascii c2) (N_of_ascii c3)) as [E23|L23|G23],
           (N.compare_spec (N_of_ascii c1) (N_of_ascii c3)) as [E13|L13|G13];
    try done; try lia.
  apply IH.
Qed.

Lemma pathLe_total : Total pathLe.
Proof. intros a b. unfold pathLe. apply String.leb_total. Qed.

Lemma pathLe_trans : Transitive pathLe.
Proof.
  intros a b c. unfold pathLe, String.leb. intros Hab Hbc.
  pose proof (string_compare_le_trans
                (path (workspace.File a)) (path (workspace.File b))
                (path (workspace.File c))) as Htrans.
  destruct (String.compare (path (workspace.File a)) (path (workspace.File b)));
    destruct (String.compare (path (workspace.File b)) (path (workspace.File c)));
    destruct (String.compare (path (workspace.File a)) (path (workspace.File c)));
    try done; by destruct Htrans.
Qed.


(** C1 on a run over one schema document without the flag. *)
Lemma schema_gate_matrix_witness :
  Apply (FileMarksOpts schemaOff) (Input_Files (input [config; schema1]))
    = inr [config; schema1] ∧
  InspectFiles schemaOff = false ∧
  AsOverlays (DataValuesFlags schemaOff) (StrictYAML schemaOff)
    = inr ([dv "a=2"], [dv "lib:b=3"]) ∧
  workspace.Schemas
    (newLibraryLoader schemaOff (workspace.NewRootLibrary [config; schema1]))
    = inr [doc "#@schema one"] ∧
  EvWarnf schemaNotEnabledWarning
    ∈ (RunWithFiles schemaOff (input [config; schema1])).1 ∧
  ¬ builtSchema (RunWithFiles schemaOff (input [config; schema1])).1 ∧
  usesSchema (RunWithFiles schemaOff (input [config; schema1])).1
    yamlmeta.AnySchema.
Proof.
  repeat (split; [reflexivity|]).
  apply (schema_gate_matrix schemaOff (input [config; schema1])
           [config; schema1] [dv "a=2"] [dv "lib:b=3"]
           [doc "#@schema one"]);
    reflexivity.
Defined.

(** C2 as stated fails: in files-inspect mode, a malformed file mark makes
    the run return an error and no document. *)
Lemma files_inspect_counterexample :
  InspectFiles listBadMark = true ∧
  Err (RunWithFiles listBadMark (input [config; broken])).2
    = Some "expected file mark to be in format path:mark"%string ∧
  ¬ ∃ ds, DocSet (RunWithFiles listBadMark (input [config; broken])).2 = Some ds.
Proof.
  split; [reflexivity|]. split; [reflexivity|].
  intros [ds Hds]. vm_compute in Hds. discriminate Hds.
Qed.

(** The amended C2 on a listing over a template that cannot be parsed and
    a data value that cannot be parsed. *)
Lemma files_inspect_listing_witness :
  Total workspace.OrderLe ∧ Transitive workspace.OrderLe ∧
  InspectFiles listBroken = true ∧
  Apply (FileMarksOpts listBroken) (Input_Files (input [config; broken]))
    = inr [config; broken] ∧
  workspace.Eval
    (newLibraryLoader listBroken (workspace.NewRootLibrary [config; broken]))
    (dv "a=2") [] = inl "cannot parse template"%string ∧
  ¬ evaluated (RunWithFiles listBroken (input [config; broken])).1 ∧
  ∃ sorted,
    sorted ≡ₚ workspace.ListAccessibleFiles
                (workspace.NewRootLibrary [config; broken]) ∧
    StronglySorted workspace.OrderLe sorted ∧
    (RunWithFiles listBroken (input [config; broken])).2 =
      {| Files := [];
         DocSet :=
           Some (yamlmeta.MkDocumentSet
             [yamlmeta.MkDocument
                (yamlmeta.AnyArray
                   (yamlmeta.MkArray
                      ((λ f, yamlmeta.MkArrayItem
                               (yamlmeta.AnyString
                                  (files.RelativePath (workspace.File f))))
                         <$> sorted)))]);
         Err := None |}.
Proof.
  split; [exact pathLe_total|]. split; [exact pathLe_trans|].
  repeat (split; [reflexivity|]).
  pose proof (files_inspect_listing listBroken (input [config; broken])
                pathLe_total pathLe_trans eq_refl)
    as (_ & Heval & Hlist & _).
  split; [exact Heval|].
  exact (Hlist [config; broken] eq_refl).
Defined.

(** C9 on the same listing: the data value that cannot be parsed is never
    looked at, and fails the run once the files-inspect flag is off. *)
Lemma files_inspect_skips_flag_parsing_witness :
  InspectFiles listBroken = true ∧
  AsOverlays (DataValuesFlags listBroken) (StrictYAML listBroken)
    = inl "expected data value to be in format key=value"%string ∧
  ¬ parsedFlags (RunWithFiles listBroken (input [config])).1 ∧
  Err (RunWithFiles listBroken (input [config])).2 = None ∧
  Err (RunWithFiles (withInspectFiles false listBroken) (input [config])).2
    = Some "expected data value to be in format key=value"%string.
Proof.
  repeat (split; [reflexivity|]).
  pose proof (files_inspect_skips_flag_parsing listBroken (input [config])
                eq_refl) as (Hskip & Hlist & _).
  split; [exact Hskip|].
  destruct (proj2 (Hlist [config] eq_refl) _ eq_refl) as [Hok Hoff].
  split; [exact Hok|]. by rewrite Hoff.
Defined.

(** C4 as stated fails: the root scope yields two schema documents, the
    schema flag is set, and the run succeeds. *)
Lemma two_schema_documents_counterexample :
  workspace.Schemas
    (newLibraryLoader twoSchemas
       (workspace.NewRootLibrary [config; schema2; schema1]))
    = inr [doc "#@schema two"; doc "#@schema one"] ∧
  Err (RunWithFiles twoSchemas (input [config; schema2; schema1])).2 = None ∧
  usesSchema (RunWithFiles twoSchemas (input [config; schema2; schema1])).1
    (yamlmeta.TypedSchema "#@schema two"%string).
Proof.
  split; [reflexivity|]. split; [reflexivity|].
  split.
  - eexists _, _. vm_compute. by repeat constructor.
  - intros overlays schema res Hin.
    set (l := (RunWithFiles _ _).1) in Hin. vm_compute in l. subst l.
    decompose_list_elem_of; by simplify_eq.
Qed.

(** The amended C4 on that run. *)
Lemma extra_schema_documents_ignored_witness :
  Apply (FileMarksOpts twoSchemas)
        (Input_Files (input [config; schema2; schema1]))
    = inr [config; schema2; schema1] ∧
  InspectFiles twoSchemas = false ∧
  AsOverlays (DataValuesFlags twoSchemas) (StrictYAML twoSchemas)
    = inr ([dv "a=2"], [dv "lib:b=3"]) ∧
  workspace.Schemas
    (newLibraryLoader twoSchemas
       (workspace.NewRootLibrary [config; schema2; schema1]))
    = inr [doc "#@schema two"; doc "#@schema one"] ∧
  ∀ doc' res,
    EvNewDocumentSchema doc' res
      ∈ (RunWithFiles twoSchemas (input [config; schema2; schema1])).1 →
    doc' = doc "#@schema two".
Proof.
  repeat (split; [reflexivity|]).
  apply (extra_schema_documents_ignored twoSchemas
           (input [config; schema2; schema1])
           [config; schema2; schema1] [dv "a=2"] [dv "lib:b=3"]
           (doc "#@schema two") [doc "#@schema one"]);
    reflexivity.
Defined.



(** C6 on the two sources of [Run]: the second has input, neither has
    output. *)
Lemma pickSource_first_or_last_witness :
  [source false false []; source true false [config]] ≠ [] ∧
  pickSource schemaOff
    [source false false []; source true false [config]] HasInput
    = Some (source true false [config]) ∧
  pickSource schemaOff
    [source false false []; source true false [config]] HasOutput
    = Some (source true false [config]).
Proof.
  split; [done|].
  pose proof (pickSource_first_or_last schemaOff
                [source false false []; source true false [config]]
                HasInput ltac:(done)) as (Hfirst & _ & _).
  pose proof (pickSource_first_or_last schemaOff
                [source false false []; source true false [config]]
                HasOutput ltac:(done)) as (_ & Hlast & _).
  split.
  - apply (Hfirst [source false false []] (source true false [config]) []).
    + reflexivity.
    + by repeat constructor.
    + reflexivity.
  - apply Hlast. by repeat constructor.
Defined.

(** C7 on a run with both inspect flags set: it lists files and resolves
    nothing. *)
Lemma modes_exclusive_witness :
  InspectFiles listBadMark = true ∧
  Inspect (DataValuesFlags listBadMark) = true ∧
  modeOf listBadMark = FilesInspect ∧
  ¬ resolved (RunWithFiles listBadMark (input [config])).1.
Proof.
  repeat (split; [reflexivity|]).
  pose proof (modes_exclusive listBadMark (input [config]))
    as (_ & Hboth & _ & _ & Hfiles & _).
  exact (proj1 (proj2 (Hfiles (Hboth eq_refl eq_refl)))).
Defined.


(** X2 on two sources without output: the last one is returned, though
    not accepted. *)
Lemma pickSource_sound_witness :
  pickSource schemaOff
    [source false false []; source true false [config]] HasOutput
    = Some (source true false [config]) ∧
  source true false [config]
    ∈ [source false false []; source true false [config]] ∧
  last [source false false []; source true false [config]]
    = Some (source true false [config]).
Proof.
  split; [reflexivity|].
  destruct (pickSource_sound schemaOff
              [source false false []; source true false [config]]
              HasOutput (source true false [config]) eq_refl)
    as (Hin & [Hacc|[_ Hlast]] & _).
  - discriminate Hacc.
  - by split.
Defined.

(** X4 on a source with input followed by another one. *)
Lemma pickSource_ignores_later_sources_witness :
  Exists (λ s, HasInput s = true) [source true false [config]] ∧
  pickSource schemaOff
    ([source true false [config]] ++ [source true true []]) HasInput
    = pickSource schemaOff [source true false [config]] HasInput.
Proof.
  assert (Hex : Exists (λ s, HasInput s = true) [source true false [config]])
    by (by left).
  split; [exact Hex|].
  exact (pickSource_ignores_later_sources schemaOff
           [source true false [config]] [source true true []] HasInput Hex).
Defined.

(** X7 on a run whose data values cannot be parsed. *)
Lemma RunWithFiles_stops_at_failure_witness :
  EvAsOverlays false
    (inl "expected data value to be in format key=value"%string)
    ∈ (RunWithFiles showBadValues (input [config; schema1])).1 ∧
  last (RunWithFiles showBadValues (input [config; schema1])).1
    = Some (EvAsOverlays false
              (inl "expected data value to be in format key=value"%string)).
Proof.
  assert (Hin : EvAsOverlays false
                  (inl "expected data value to be in format key=value"%string)
                ∈ (RunWithFiles showBadValues (input [config; schema1])).1)
    by (vm_compute; repeat constructor).
  split; [exact Hin|].
  exact (RunWithFiles_stops_at_failure showBadValues
           (input [config; schema1]) _ _ Hin eq_refl).
Defined.

(** X12 on two listings that differ in the schema flag, the values-inspect
    flag and the data values. *)
Lemma files_inspect_reads_file_marks_only_witness :
  InspectFiles listBroken = true ∧
  InspectFiles (options true true true [] [] []) = true ∧
  FileMarksOpts listBroken = FileMarksOpts (options true true true [] [] []) ∧
  RunWithFiles listBroken (input [config; broken])
    = RunWithFiles (options true true true [] [] []) (input [config; broken]).
Proof.
  repeat (split; [reflexivity|]).
  exact (files_inspect_reads_file_marks_only listBroken
           (options true true true [] [] []) (input [config; broken])
           eq_refl eq_refl eq_refl).
Defined.

(** X13 on a values-inspect run with a schema and the same run with the
    values-inspect flag off. *)
Lemma values_inspect_is_normal_cut_short_witness :
  InspectFiles showValues = false ∧
  Inspect (DataValuesFlags showValues) = true ∧
  Inspect (DataValuesFlags twoSchemas) = false ∧
  AsOverlays (DataValuesFlags twoSchemas) (StrictYAML showValues)
    = AsOverlays (DataValuesFlags showValues) (StrictYAML showValues) ∧
  Err (RunWithFiles showValues (input [config; schema1])).2 = None ∧
  ∃ values libraryValues res,
    (RunWithFiles (withDataValuesFlags (DataValuesFlags twoSchemas) showValues)
       (input [config; schema1])).1
    = (RunWithFiles showValues (input [config; schema1])).1
        ++ [EvEval values libraryValues res].
Proof.
  repeat (split; [reflexivity|]).
  destruct (values_inspect_is_normal_cut_short showValues
              (DataValuesFlags twoSchemas) (input [config; schema1])
              eq_refl eq_refl eq_refl eq_refl) as (_ & _ & Hok).
  destruct (Hok eq_refl) as (values & libraryValues & res & _ & Hlog).
  by exists values, libraryValues, res.
Defined.

End Demo.
